(** * libzbc: the internal header [lib/zbc.h]

    A shallow embedding of the device abstraction declared in
    [lib/zbc.h] (operation table, device descriptor, the validation
    macros and the levelled logging macros), together with the parts of
    the library the header only declares: the public types of
    [libzbc/zbc.h] and the entry points that validate a request and hand
    it to the bound backend.

    Integers are [Z]; a C unsigned integer of width [w] is a [Z] whose
    wrap-around is written out with [wrap w]. *)

From Stdlib Require Import ZArith List Bool String Lia.
Import ListNotations.

Local Open Scope Z_scope.
Local Open Scope bool_scope.

(* ================================================================== *)
(** ** Machine integers *)

Definition wrap (w x : Z) : Z := x mod 2 ^ w.

(** [unsigned int] and [uint32_t]. *)
Definition u32 (x : Z) : Z := wrap 32 x.

(** [uint64_t] (sectors, LBAs, byte offsets). *)
Definition u64 (x : Z) : Z := wrap 64 x.

(* ================================================================== *)
(** ** Public types used by the header

    [lib/zbc.h] includes [libzbc/zbc.h] for the types below; that header
    is not part of the sources at hand. *)

(** Modelled from the spec: [enum zbc_dev_model] of [libzbc/zbc.h], the
    zone model classification of a device: "not zoned / host-aware /
    host-managed". The two zoned constructors carry the names the macro
    [zbc_dev_is_zoned] compares against. *)
Inductive zbc_dev_model_t : Type :=
| ZBC_DM_NOT_ZONED
| ZBC_DM_HOST_AWARE
| ZBC_DM_HOST_MANAGED.

Definition zbc_dev_model_eqb (a b : zbc_dev_model_t) : bool :=
  match a, b with
  | ZBC_DM_NOT_ZONED, ZBC_DM_NOT_ZONED
  | ZBC_DM_HOST_AWARE, ZBC_DM_HOST_AWARE
  | ZBC_DM_HOST_MANAGED, ZBC_DM_HOST_MANAGED => true
  | _, _ => false
  end.

(** Modelled from the spec: [struct zbc_device_info] of [libzbc/zbc.h],
    the device geometry: "zone model classification, logical block
    size, physical block size, total addressable sector count". The two
    block sizes are 32-bit unsigned quantities in bytes, the sector
    count a 64-bit one; the fields keep the names the macros of
    [lib/zbc.h] use. *)
Record zbc_device_info : Type := {
  zbd_model : zbc_dev_model_t;
  zbd_lblock_size : Z;
  zbd_pblock_size : Z;
  zbd_sectors : Z
}.

(** Modelled from the spec: the zone type of a zone descriptor,
    "conventional, sequential-write-required,
    sequential-write-preferred". *)
Inductive zbc_zone_type : Type :=
| ZBC_ZT_CONVENTIONAL
| ZBC_ZT_SEQUENTIAL_REQ
| ZBC_ZT_SEQUENTIAL_PREF.

(** Modelled from the spec: the zone condition of a zone descriptor,
    "empty, implicit-open, explicit-open, closed, full, read-only,
    offline, inactive", and the constant "not-write-pointer" value
    reported for conventional zones. *)
Inductive zbc_zone_condition : Type :=
| ZBC_ZC_NOT_WP
| ZBC_ZC_EMPTY
| ZBC_ZC_IMP_OPEN
| ZBC_ZC_EXP_OPEN
| ZBC_ZC_CLOSED
| ZBC_ZC_FULL
| ZBC_ZC_RDONLY
| ZBC_ZC_OFFLINE
| ZBC_ZC_INACTIVE.

(** Modelled from the spec: [struct zbc_zone] of [libzbc/zbc.h], the
    zone descriptor: "start LBA, length, write pointer LBA, zone type,
    zone condition, and a reset recommended flag". *)
Record zbc_zone : Type := {
  zbz_start : Z;
  zbz_length : Z;
  zbz_write_pointer : Z;
  zbz_type : zbc_zone_type;
  zbz_condition : zbc_zone_condition;
  zbz_reset : bool
}.

(** Modelled from the spec: [enum zbc_zone_op] of [libzbc/zbc.h],
    "op in {Open, Close, Finish, Reset-Write-Pointer}". *)
Inductive zbc_zone_op : Type :=
| ZBC_OP_OPEN_ZONE
| ZBC_OP_CLOSE_ZONE
| ZBC_OP_FINISH_ZONE
| ZBC_OP_RESET_ZONE.

(** Modelled from the spec: the flag bit of a zone operation that
    "requests the operation apply to all zones rather than the single
    zone at start_lba". Its position is fixed by [libzbc/zbc.h]; bit 0
    is taken here. *)
Definition ZBC_OP_ALL_ZONES : Z := 1.

(** Modelled from the spec: the error taxonomy, "Invalid-Argument,
    Unsupported, Not-Zoned, Device-Error, I/O-Error, Open-Failure". *)
Inductive zbc_error_class : Type :=
| ZBC_E_INVALID_ARGUMENT
| ZBC_E_UNSUPPORTED
| ZBC_E_NOT_ZONED
| ZBC_E_DEVICE_ERROR
| ZBC_E_IO_ERROR
| ZBC_E_OPEN_FAILURE.

(** Outcome of a fallible call: a value, or an error class. *)
Inductive zbc_result (A : Type) : Type :=
| ZbcOk (a : A)
| ZbcErr (e : zbc_error_class).

Arguments ZbcOk {A} a.
Arguments ZbcErr {A} e.

(** Modelled from the spec: [struct zbc_errno] of [libzbc/zbc.h], the
    structured error: "a coarse class plus backend-specific diagnostic
    code and human-readable text"; [None] stands for the class
    success. *)
Record zbc_errno : Type := {
  err_class : option zbc_error_class;
  err_code : Z;
  err_text : string
}.

(* ================================================================== *)
(** ** [struct zbc_ops] and [struct zbc_device] *)

Section Device.

(** What a backend holds and changes: the state of the device behind
    the file descriptors. *)
Variable St : Type.

(** [struct zbc_ops]: one function pointer per operation. A backend
    entry takes the device state and the request and gives back the
    outcome and the new state. The last two entries are optional
    ("For emulated drives only (optional)"): a null pointer is
    [None]. *)
Record zbc_ops : Type := {
  zbd_open : string -> Z -> St -> zbc_result unit * St;
  zbd_close : St -> zbc_result unit * St;
  zbd_report_zones : Z -> Z -> St -> zbc_result (list zbc_zone) * St;
  zbd_zone_op : Z -> zbc_zone_op -> Z -> St -> zbc_result unit * St;
  zbd_pread : Z -> Z -> St -> zbc_result Z * St;
  zbd_pwrite : Z -> Z -> St -> zbc_result Z * St;
  zbd_flush : St -> zbc_result unit * St;
  zbd_set_zones : option (Z -> Z -> St -> zbc_result unit * St);
  zbd_set_wp : option (Z -> Z -> St -> zbc_result unit * St)
}.

(** [struct zbc_device]: the device descriptor. *)
Record zbc_device : Type := {
  zbd_filename : string;
  zbd_fd : Z;
  zbd_sg_fd : Z;
  zbd_ops : zbc_ops;
  zbd_info : zbc_device_info;
  zbd_flags : Z;
  zbd_errno : zbc_errno
}.

(* ---------------------------------------------------------------- *)
(** *** Macros of [lib/zbc.h] *)

(** [#define zbc_dev_model(dev) ((dev)->zbd_info.zbd_model)] *)
Definition zbc_dev_model (dev : zbc_device) : zbc_dev_model_t :=
  zbd_model (zbd_info dev).

(** [#define zbc_dev_is_zoned(dev)
       (zbc_dev_model(dev) == ZBC_DM_HOST_MANAGED ||
        zbc_dev_model(dev) == ZBC_DM_HOST_AWARE)] *)
Definition zbc_dev_is_zoned (dev : zbc_device) : bool :=
  zbc_dev_model_eqb (zbc_dev_model dev) ZBC_DM_HOST_MANAGED
  || zbc_dev_model_eqb (zbc_dev_model dev) ZBC_DM_HOST_AWARE.

(** [#define ZBC_DEVTEST 0x80000000] *)
Definition ZBC_DEVTEST : Z := 0x80000000.

(** [zbc_test_mode(dev)]: the value of the macro's expansion. With
    [HAVE_DEVTEST] defined it is [(dev)->zbd_flags & ZBC_DEVTEST];
    otherwise it is the constant [false], that is 0. *)
Definition zbc_test_mode_val (HAVE_DEVTEST : bool) (dev : zbc_device) : Z :=
  if HAVE_DEVTEST then Z.land (zbd_flags dev) ZBC_DEVTEST else 0.

(** The macro as a condition: a C value is true when it is not 0. *)
Definition zbc_test_mode (HAVE_DEVTEST : bool) (dev : zbc_device) : bool :=
  negb (zbc_test_mode_val HAVE_DEVTEST dev =? 0).

(** [#define zbc_dev_sect_laligned(dev, sect)
       ((((sect) << 9) & ((dev)->zbd_info.zbd_lblock_size - 1)) == 0)]

    [sect] is a 64-bit sector number, so the shift wraps at 2^64; the
    block size is a 32-bit field, so the subtraction wraps at 2^32
    before it is widened for the conjunction. *)
Definition zbc_dev_sect_laligned (dev : zbc_device) (sect : Z) : bool :=
  Z.land (u64 (Z.shiftl sect 9))
         (u32 (zbd_lblock_size (zbd_info dev) - 1)) =? 0.

(** [#define zbc_dev_sect_paligned(dev, sect)
       ((((sect) << 9) & ((dev)->zbd_info.zbd_pblock_size - 1)) == 0)] *)
Definition zbc_dev_sect_paligned (dev : zbc_device) (sect : Z) : bool :=
  Z.land (u64 (Z.shiftl sect 9))
         (u32 (zbd_pblock_size (zbd_info dev) - 1)) =? 0.

End Device.

Arguments zbd_open {St} _.
Arguments zbd_close {St} _.
Arguments zbd_report_zones {St} _.
Arguments zbd_zone_op {St} _.
Arguments zbd_pread {St} _.
Arguments zbd_pwrite {St} _.
Arguments zbd_flush {St} _.
Arguments zbd_set_zones {St} _.
Arguments zbd_set_wp {St} _.
Arguments zbd_filename {St} _.
Arguments zbd_fd {St} _.
Arguments zbd_sg_fd {St} _.
Arguments zbd_ops {St} _.
Arguments zbd_info {St} _.
Arguments zbd_flags {St} _.
Arguments zbd_errno {St} _.
Arguments zbc_dev_model {St} dev.
Arguments zbc_dev_is_zoned {St} dev.
Arguments zbc_test_mode_val {St} HAVE_DEVTEST dev.
Arguments zbc_test_mode {St} HAVE_DEVTEST dev.
Arguments zbc_dev_sect_laligned {St} dev sect.
Arguments zbc_dev_sect_paligned {St} dev sect.

(** [#define zbc_ro_mask(ro) ((ro) & 0x3f)] *)
Definition zbc_ro_mask (ro : Z) : Z := Z.land ro 0x3f.

(* ================================================================== *)
(** ** Log levels and the levelled printing macros *)

Definition ZBC_LOG_NONE : Z := 0.
Definition ZBC_LOG_WARNING : Z := 1.
Definition ZBC_LOG_ERROR : Z := 2.
Definition ZBC_LOG_INFO : Z := 3.
Definition ZBC_LOG_DEBUG : Z := 4.
Definition ZBC_LOG_MAX : Z := 5.

(** The two streams the macros print to. *)
Inductive stream : Type := stdout | stderr.

(** What the process has printed so far, oldest line first. The format
    string and its arguments are taken already formatted. *)
Definition output : Type := list (stream * string).

(** [zbc_print(stream, format, args...)]: [fprintf] then [fflush]. *)
Definition zbc_print (s : stream) (text : string) (out : output) : output :=
  out ++ [(s, text)].

(** [zbc_print_level(l, stream, format, args...)]:
    [if ((l) <= zbc_log_level) zbc_print((stream), "(libzbc) " format, args)].
    The global [zbc_log_level] is the argument [log_level]. *)
Definition zbc_print_level (l : Z) (s : stream) (text : string)
           (log_level : Z) (out : output) : output :=
  if l <=? log_level
  then zbc_print s (String.append "(libzbc) " text) out
  else out.

Definition zbc_warning (text : string) : Z -> output -> output :=
  zbc_print_level ZBC_LOG_WARNING stderr (String.append "[WARNING] " text).

Definition zbc_error (text : string) : Z -> output -> output :=
  zbc_print_level ZBC_LOG_ERROR stderr (String.append "[ERROR] " text).

Definition zbc_info (text : string) : Z -> output -> output :=
  zbc_print_level ZBC_LOG_INFO stdout text.

Definition zbc_debug (text : string) : Z -> output -> output :=
  zbc_print_level ZBC_LOG_DEBUG stdout text.

(** [assert(e)] of [<assert.h>], as [zbc_panic] uses it: with [NDEBUG]
    defined it expands to nothing. Otherwise a false [e] makes the C
    library write a diagnostic of its own on the error stream and abort
    the process. The text of that diagnostic (program, file, line,
    function and the expression) is the implementation's; it is the
    argument [diag]. The result is the output and whether the process
    is aborted. *)
Definition c_assert (NDEBUG : bool) (e : Z) (diag : string) (out : output)
  : output * bool :=
  if negb NDEBUG && (e =? 0)
  then (out ++ [(stderr, diag)], true)
  else (out, false).

(** The line feed that ends the format of [zbc_assert]. *)
Definition newline : string := String (Ascii.ascii_of_nat 10) EmptyString.

(** [zbc_panic(format, args...)]:
    [zbc_print_level(ZBC_LOG_ERROR, stderr, "[PANIC] " format, args);
     assert(0);]
    [diag] is what [assert(0)] writes at this place. *)
Definition zbc_panic (NDEBUG : bool) (text diag : string) (log_level : Z)
           (out : output) : output * bool :=
  c_assert NDEBUG 0 diag
    (zbc_print_level ZBC_LOG_ERROR stderr (String.append "[PANIC] " text)
                     log_level out).

(** [zbc_assert(cond)]:
    [if (!(cond)) zbc_panic("Condition %s failed\n", # cond);]
    [cond] is the value of the condition and [cond_text] its source
    text, which [# cond] turns into a string. *)
Definition zbc_assert (NDEBUG : bool) (cond : Z) (cond_text diag : string)
           (log_level : Z) (out : output) : output * bool :=
  if cond =? 0
  then zbc_panic NDEBUG
         (String.append "Condition "
            (String.append cond_text (String.append " failed" newline)))
         diag log_level out
  else (out, false).

(** One use of [zbc_print_level]: its level, stream and text. *)
Record log_call : Type := {
  lc_level : Z;
  lc_stream : stream;
  lc_text : string
}.

(** The line a call prints, when it prints. *)
Definition log_line (c : log_call) : stream * string :=
  (lc_stream c, String.append "(libzbc) " (lc_text c)).

(** A run of uses of [zbc_print_level], one after the other, under one
    setting of [zbc_log_level]. *)
Definition zbc_print_level_seq (calls : list log_call) (log_level : Z)
           (out : output) : output :=
  fold_left (fun o c => zbc_print_level (lc_level c) (lc_stream c)
                                        (lc_text c) log_level o)
            calls out.

(** What a message macro may do to the output: leave it as it is, or
    add one line on the stream [s] that starts with [tag]. *)
Definition adds_at_most_one_line (s : stream) (tag : string)
           (out out' : output) : Prop :=
  out' = out
  \/ exists line, out' = out ++ [(s, line)] /\ String.prefix tag line = true.

(** The usual test for a power of two: positive, with a single bit
    set. *)
Definition is_pow2 (x : Z) : bool :=
  (0 <? x) && (Z.land x (x - 1) =? 0).

(* ================================================================== *)
(** ** The entry points of the library

    [lib/zbc.h] declares the operation table and the macros; the
    functions that check a request and call the bound backend are in
    [lib/zbc.c], which is not part of the sources at hand. They are
    modelled here from the spec, on top of the macros above. Positions
    and sizes are in 512-byte sectors, the unit of the geometry's
    capacity and of the alignment macros. *)

(** A request as a backend receives it: the entry of [struct zbc_ops]
    that is called, with its arguments. *)
Inductive backend_call : Type :=
| CallReportZones (start ro : Z)
| CallZoneOp (start : Z) (op : zbc_zone_op) (flags : Z)
| CallPread (count offset : Z)
| CallPwrite (count offset : Z)
| CallSetZones (conv_sz zone_sz : Z)
| CallSetWp (zone_start wp : Z).

(** What a call gives back on success. *)
Inductive zbc_reply : Type :=
| ReplyDone
| ReplyZones (zones : list zbc_zone)
| ReplyCount (n : Z).

(** What the validation of a request decides: the request is rejected
    with an error class and no backend is called, or it is answered
    without the backend, or it is forwarded to the backend as the given
    call. *)
Inductive verdict : Type :=
| Reject (e : zbc_error_class)
| Answer (r : zbc_reply)
| Forward (c : backend_call).

Definition result_map {A B : Type} (f : A -> B) (r : zbc_result A)
  : zbc_result B :=
  match r with
  | ZbcOk a => ZbcOk (f a)
  | ZbcErr e => ZbcErr e
  end.

Definition is_ok {A : Type} (r : zbc_result A) : bool :=
  match r with
  | ZbcOk _ => true
  | ZbcErr _ => false
  end.

(** Modelled from the spec: the zone that starts at [start], if any
    ("start_lba is a zone boundary"). *)
Definition zone_at (zones : list zbc_zone) (start : Z) : option zbc_zone :=
  find (fun z => zbz_start z =? start) zones.

Definition zone_type_eqb (a b : zbc_zone_type) : bool :=
  match a, b with
  | ZBC_ZT_CONVENTIONAL, ZBC_ZT_CONVENTIONAL
  | ZBC_ZT_SEQUENTIAL_REQ, ZBC_ZT_SEQUENTIAL_REQ
  | ZBC_ZT_SEQUENTIAL_PREF, ZBC_ZT_SEQUENTIAL_PREF => true
  | _, _ => false
  end.

(** Modelled from the spec: the backends, "a fixed closed set of
    variants {kernel-zoned-block, ATA-pass-through, SCSI-pass-through,
    file-emulation}". *)
Inductive zbc_backend : Type :=
| ZBC_BACKEND_BLOCK
| ZBC_BACKEND_ATA
| ZBC_BACKEND_SCSI
| ZBC_BACKEND_FAKE.

Definition is_emulation (b : zbc_backend) : bool :=
  match b with
  | ZBC_BACKEND_FAKE => true
  | _ => false
  end.

Section Library.

Variable St : Type.

(** The zones of the device in a given state, as the validation of a
    request sees them. *)
Variable zone_table : St -> list zbc_zone.

(** Whether the build defines [HAVE_DEVTEST]. *)
Variable HAVE_DEVTEST : bool.

(** Modelled from the spec: calling the entry of the operation table a
    request stands for ("forwards validated requests to it"). A null
    optional entry cannot be called: nothing happens and the call is
    unsupported. *)
Definition backend_invoke (ops : zbc_ops St) (c : backend_call) (st : St)
  : zbc_result zbc_reply * St :=
  match c with
  | CallReportZones start ro =>
      let (r, st') := zbd_report_zones ops start ro st in
      (result_map ReplyZones r, st')
  | CallZoneOp start op flags =>
      let (r, st') := zbd_zone_op ops start op flags st in
      (result_map (fun _ => ReplyDone) r, st')
  | CallPread count offset =>
      let (r, st') := zbd_pread ops count offset st in
      (result_map ReplyCount r, st')
  | CallPwrite count offset =>
      let (r, st') := zbd_pwrite ops count offset st in
      (result_map ReplyCount r, st')
  | CallSetZones conv_sz zone_sz =>
      match zbd_set_zones ops with
      | Some f =>
          let (r, st') := f conv_sz zone_sz st in
          (result_map (fun _ => ReplyDone) r, st')
      | None => (ZbcErr ZBC_E_UNSUPPORTED, st)
      end
  | CallSetWp zone_start wp =>
      match zbd_set_wp ops with
      | Some f =>
          let (r, st') := f zone_start wp st in
          (result_map (fun _ => ReplyDone) r, st')
      | None => (ZbcErr ZBC_E_UNSUPPORTED, st)
      end
  end.

(** Modelled from the spec: carrying out a verdict on a device.
    "Validation failures are detected and returned before any backend
    is invoked": only a forwarded request reaches the backend; a
    rejected or answered one leaves the device state as it is. *)
Definition zbc_run (dev : zbc_device St) (v : verdict) (st : St)
  : zbc_result zbc_reply * St :=
  match v with
  | Reject e => (ZbcErr e, st)
  | Answer r => (ZbcOk r, st)
  | Forward c => backend_invoke (zbd_ops dev) c st
  end.

(** Modelled from the spec: the validation of [report_zones]
    ([lib/zbc.c]). "Starting LBA must be a valid zone-start boundary
    or the operation fails with invalid-argument; starting LBA beyond
    device capacity returns an empty sequence, not an error. The
    filter value is masked to 6 bits before forwarding." *)
Definition zbc_report_zones_check (dev : zbc_device St) (st : St)
           (start ro : Z) : verdict :=
  if zbd_sectors (zbd_info dev) <=? start then Answer (ReplyZones [])
  else match zone_at (zone_table st) start with
       | None => Reject ZBC_E_INVALID_ARGUMENT
       | Some _ => Forward (CallReportZones start (zbc_ro_mask ro))
       end.

Definition zbc_report_zones (dev : zbc_device St) (start ro : Z) (st : St)
  : zbc_result zbc_reply * St :=
  zbc_run dev (zbc_report_zones_check dev st start ro) st.

(** Modelled from the spec: the validation of [zone_op]
    ([lib/zbc.c]). "Validation order: (1) reject if device is not
    zoned, (2) reject if start_lba is not a zone boundary unless the
    all-zones flag is set (in which case start_lba is ignored),
    (3) reject ops on conventional zones, (4) forward to backend." *)
Definition zbc_zone_op_check (dev : zbc_device St) (st : St)
           (start : Z) (op : zbc_zone_op) (flags : Z) : verdict :=
  if negb (zbc_dev_is_zoned dev) then Reject ZBC_E_NOT_ZONED
  else if negb (Z.land flags ZBC_OP_ALL_ZONES =? 0)
       then Forward (CallZoneOp start op flags)
       else match zone_at (zone_table st) start with
            | None => Reject ZBC_E_INVALID_ARGUMENT
            | Some z =>
                if zone_type_eqb (zbz_type z) ZBC_ZT_CONVENTIONAL
                then Reject ZBC_E_NOT_ZONED
                else Forward (CallZoneOp start op flags)
            end.

Definition zbc_zone_operation (dev : zbc_device St) (start : Z)
           (op : zbc_zone_op) (flags : Z) (st : St)
  : zbc_result zbc_reply * St :=
  zbc_run dev (zbc_zone_op_check dev st start op flags) st.

(** Modelled from the spec: the validation of [read] and [write]
    ([lib/zbc.c]). "Every read/write request is validated for
    starting-offset alignment to the logical block size before being
    forwarded to a backend; misaligned requests fail with an
    invalid-argument class error and are never sent to the backend,
    except when the handle's test-mode flag is set, in which case
    alignment checks are bypassed." *)
Definition zbc_rw_check (dev : zbc_device St) (c : backend_call)
           (offset : Z) : verdict :=
  if zbc_test_mode HAVE_DEVTEST dev then Forward c
  else if zbc_dev_sect_laligned dev offset then Forward c
       else Reject ZBC_E_INVALID_ARGUMENT.

Definition zbc_pread_check (dev : zbc_device St) (count offset : Z)
  : verdict :=
  zbc_rw_check dev (CallPread count offset) offset.

Definition zbc_pwrite_check (dev : zbc_device St) (count offset : Z)
  : verdict :=
  zbc_rw_check dev (CallPwrite count offset) offset.

Definition zbc_pread (dev : zbc_device St) (count offset : Z) (st : St)
  : zbc_result zbc_reply * St :=
  zbc_run dev (zbc_pread_check dev count offset) st.

Definition zbc_pwrite (dev : zbc_device St) (count offset : Z) (st : St)
  : zbc_result zbc_reply * St :=
  zbc_run dev (zbc_pwrite_check dev count offset) st.

(** Modelled from the spec: the two backend-optional calls
    ([lib/zbc.c]), "reconfigure_zones(handle, conventional_size,
    zone_size)" and "set_write_pointer(handle, zone_start, new_wp)":
    "both fail with unsupported on non-emulated backends". A backend
    supports the call when its table has the entry. *)
Definition zbc_set_zones_check (dev : zbc_device St) (conv_sz zone_sz : Z)
  : verdict :=
  match zbd_set_zones (zbd_ops dev) with
  | None => Reject ZBC_E_UNSUPPORTED
  | Some _ => Forward (CallSetZones conv_sz zone_sz)
  end.

Definition zbc_set_write_pointer_check (dev : zbc_device St)
           (zone_start wp : Z) : verdict :=
  match zbd_set_wp (zbd_ops dev) with
  | None => Reject ZBC_E_UNSUPPORTED
  | Some _ => Forward (CallSetWp zone_start wp)
  end.

Definition zbc_set_zones (dev : zbc_device St) (conv_sz zone_sz : Z)
           (st : St) : zbc_result zbc_reply * St :=
  zbc_run dev (zbc_set_zones_check dev conv_sz zone_sz) st.

Definition zbc_set_write_pointer (dev : zbc_device St) (zone_start wp : Z)
           (st : St) : zbc_result zbc_reply * St :=
  zbc_run dev (zbc_set_write_pointer_check dev zone_start wp) st.

(* ---------------------------------------------------------------- *)
(** *** The four operation tables

    [lib/zbc.h] declares [zbc_block_ops], [zbc_ata_ops],
    [zbc_scsi_ops] and [zbc_fake_ops] as [extern]; they are defined
    by the backends. *)

(** The entries every backend provides. How a backend carries them
    out (ioctl payloads, ATA and SCSI command blocks, the emulation's
    file) is its own business. *)
Record zbc_transport : Type := {
  tr_open : string -> Z -> St -> zbc_result unit * St;
  tr_close : St -> zbc_result unit * St;
  tr_report_zones : Z -> Z -> St -> zbc_result (list zbc_zone) * St;
  tr_zone_op : Z -> zbc_zone_op -> Z -> St -> zbc_result unit * St;
  tr_pread : Z -> Z -> St -> zbc_result Z * St;
  tr_pwrite : Z -> Z -> St -> zbc_result Z * St;
  tr_flush : St -> zbc_result unit * St
}.

Definition zbc_table (tr : zbc_transport)
           (set_zones set_wp : option (Z -> Z -> St -> zbc_result unit * St))
  : zbc_ops St :=
  {| zbd_open := tr_open tr;
     zbd_close := tr_close tr;
     zbd_report_zones := tr_report_zones tr;
     zbd_zone_op := tr_zone_op tr;
     zbd_pread := tr_pread tr;
     zbd_pwrite := tr_pwrite tr;
     zbd_flush := tr_flush tr;
     zbd_set_zones := set_zones;
     zbd_set_wp := set_wp |}.

Variables block_transport ata_transport scsi_transport fake_transport
  : zbc_transport.
Variables fake_set_zones fake_set_wp
  : Z -> Z -> St -> zbc_result unit * St.

(** Modelled from the spec: the tables of the three backends that
    drive a real device leave the two optional entries null; only the
    emulation backend fills them ("two backend-optional calls used
    only by the emulation backend"). *)
Definition zbc_block_ops : zbc_ops St := zbc_table block_transport None None.
Definition zbc_ata_ops : zbc_ops St := zbc_table ata_transport None None.
Definition zbc_scsi_ops : zbc_ops St := zbc_table scsi_transport None None.
Definition zbc_fake_ops : zbc_ops St :=
  zbc_table fake_transport (Some fake_set_zones) (Some fake_set_wp).

(** The table a backend binds to a device handle. *)
Definition zbc_backend_ops (b : zbc_backend) : zbc_ops St :=
  match b with
  | ZBC_BACKEND_BLOCK => zbc_block_ops
  | ZBC_BACKEND_ATA => zbc_ata_ops
  | ZBC_BACKEND_SCSI => zbc_scsi_ops
  | ZBC_BACKEND_FAKE => zbc_fake_ops
  end.

End Library.

Arguments backend_invoke {St} ops c st.
Arguments zbc_run {St} dev v st.
Arguments zbc_report_zones_check {St} zone_table dev st start ro.
Arguments zbc_report_zones {St} zone_table dev start ro st.
Arguments zbc_zone_op_check {St} zone_table dev st start op flags.
Arguments zbc_zone_operation {St} zone_table dev start op flags st.
Arguments zbc_rw_check {St} HAVE_DEVTEST dev c offset.
Arguments zbc_pread_check {St} HAVE_DEVTEST dev count offset.
Arguments zbc_pwrite_check {St} HAVE_DEVTEST dev count offset.
Arguments zbc_pread {St} HAVE_DEVTEST dev count offset st.
Arguments zbc_pwrite {St} HAVE_DEVTEST dev count offset st.
Arguments zbc_set_zones_check {St} dev conv_sz zone_sz.
Arguments zbc_set_write_pointer_check {St} dev zone_start wp.
Arguments zbc_set_zones {St} dev conv_sz zone_sz st.
Arguments zbc_set_write_pointer {St} dev zone_start wp st.
Arguments zbc_table {St} tr set_zones set_wp.
Arguments zbc_block_ops {St} block_transport.
Arguments zbc_ata_ops {St} ata_transport.
Arguments zbc_scsi_ops {St} scsi_transport.
Arguments zbc_fake_ops {St} fake_transport fake_set_zones fake_set_wp.
Arguments zbc_backend_ops {St} block_transport ata_transport scsi_transport
  fake_transport fake_set_zones fake_set_wp b.

(* ================================================================== *)
(** ** The zones of a device

    The state a backend works on in the examples below: the zones of
    the device, as the device would report them. *)

Module ZoneModel.

(** A device is the list of its zones, in ascending start order. *)
Definition disk : Type := list zbc_zone.

(** Modelled from the spec: what [report_zones] returns, "zones at or
    after the starting LBA whose condition matches the filter, in
    ascending start-LBA order". The filter is any predicate on
    zones. *)
Definition disk_report_zones (matches : zbc_zone -> bool) (start : Z)
           (d : disk) : list zbc_zone :=
  filter (fun z => (start <=? zbz_start z) && matches z) d.

(** The scenario of the spec: "zone size 128 sectors, 4 zones, all
    Empty". *)
Definition scenario_zone (start : Z) : zbc_zone :=
  {| zbz_start := start;
     zbz_length := 128;
     zbz_write_pointer := start;
     zbz_type := ZBC_ZT_SEQUENTIAL_REQ;
     zbz_condition := ZBC_ZC_EMPTY;
     zbz_reset := false |}.

Definition scenario_disk : disk :=
  [scenario_zone 0; scenario_zone 128; scenario_zone 256; scenario_zone 384].

End ZoneModel.

(* ================================================================== *)
(** ** A device to run the definitions on

    The geometry of the scenario of the spec ("logical block size 4096,
    zone size 128 sectors, 4 zones"), over a transport whose entries
    succeed and leave the device state alone. *)

Definition idle_transport : zbc_transport ZoneModel.disk :=
  {| tr_open := fun _ _ st => (ZbcOk tt, st);
     tr_close := fun st => (ZbcOk tt, st);
     tr_report_zones := fun start _ st =>
       (ZbcOk (ZoneModel.disk_report_zones (fun _ => true) start st), st);
     tr_zone_op := fun _ _ _ st => (ZbcOk tt, st);
     tr_pread := fun count _ st => (ZbcOk count, st);
     tr_pwrite := fun count _ st => (ZbcOk count, st);
     tr_flush := fun st => (ZbcOk tt, st) |}.

Definition scenario_info (model : zbc_dev_model_t) : zbc_device_info :=
  {| zbd_model := model;
     zbd_lblock_size := 4096;
     zbd_pblock_size := 4096;
     zbd_sectors := 512 |}.

Definition scenario_device (ops : zbc_ops ZoneModel.disk)
           (model : zbc_dev_model_t) (flags : Z)
  : zbc_device ZoneModel.disk :=
  {| zbd_filename := "/dev/sdX";
     zbd_fd := 3;
     zbd_sg_fd := 4;
     zbd_ops := ops;
     zbd_info := scenario_info model;
     zbd_flags := flags;
     zbd_errno := {| err_class := None; err_code := 0; err_text := "" |} |}.

Definition scenario_zone_table (d : ZoneModel.disk) : list zbc_zone := d.

(** A host-aware device with 512-byte logical blocks on 4096-byte
    physical blocks. *)
Definition device_512e : zbc_device ZoneModel.disk :=
  {| zbd_filename := "/dev/sdY";
     zbd_fd := 3;
     zbd_sg_fd := 3;
     zbd_ops := zbc_scsi_ops idle_transport;
     zbd_info := {| zbd_model := ZBC_DM_HOST_AWARE;
                    zbd_lblock_size := 512;
                    zbd_pblock_size := 4096;
                    zbd_sectors := 512 |};
     zbd_flags := 0;
     zbd_errno := {| err_class := None; err_code := 0; err_text := "" |} |}.

(** A host-managed device with the given logical and physical block
    sizes. *)
Definition device_with_blocks (lbs pbs : Z) : zbc_device ZoneModel.disk :=
  {| zbd_filename := "/dev/sdZ";
     zbd_fd := 3;
     zbd_sg_fd := 3;
     zbd_ops := zbc_scsi_ops idle_transport;
     zbd_info := {| zbd_model := ZBC_DM_HOST_MANAGED;
                    zbd_lblock_size := lbs;
                    zbd_pblock_size := pbs;
                    zbd_sectors := 512 |};
     zbd_flags := 0;
     zbd_errno := {| err_class := None; err_code := 0; err_text := "" |} |}.

(** An emulated device: the optional entries are there, and succeed. *)
Definition scenario_backend_ops (b : zbc_backend) : zbc_ops ZoneModel.disk :=
  zbc_backend_ops idle_transport idle_transport idle_transport idle_transport
                  (fun _ _ st => (ZbcOk tt, st))
                  (fun _ _ st => (ZbcOk tt, st)) b.

(* ================================================================== *)
(** * Properties *)

(** ** Bit-level facts used by the macros *)

Lemma land_pow2_pred (x k : Z) :
  0 <= k -> Z.land x (2 ^ k - 1) = x mod 2 ^ k.
Proof.
  intros Hk.
  rewrite <- Z.land_ones by exact Hk.
  rewrite Z.ones_equiv. reflexivity.
Qed.

Lemma u32_pow2_pred (k : Z) :
  0 <= k < 32 -> u32 (2 ^ k - 1) = 2 ^ k - 1.
Proof.
  intros Hk. unfold u32, wrap.
  apply Z.mod_small.
  assert (0 < 2 ^ k) by (apply Z.pow_pos_nonneg; lia).
  assert (2 ^ k < 2 ^ 32) by (apply Z.pow_lt_mono_r; lia).
  lia.
Qed.

Lemma u64_shiftl9_mod (sect k : Z) :
  0 <= k <= 64 -> u64 (Z.shiftl sect 9) mod 2 ^ k = (sect * 512) mod 2 ^ k.
Proof.
  intros Hk. unfold u64, wrap.
  rewrite Z.shiftl_mul_pow2 by lia.
  change (2 ^ 9) with 512.
  apply Z.mod_mod_divide.
  exists (2 ^ (64 - k)).
  rewrite <- Z.pow_add_r by lia. f_equal. lia.
Qed.

(** The shape shared by the two alignment macros, for a block size that
    is a power of two. *)
Lemma sect_aligned_pow2 (sect bs k : Z) :
  0 <= k < 32 -> bs = 2 ^ k ->
  Z.land (u64 (Z.shiftl sect 9)) (u32 (bs - 1)) = (sect * 512) mod bs.
Proof.
  intros Hk ->.
  rewrite u32_pow2_pred by exact Hk.
  rewrite land_pow2_pred by lia.
  apply u64_shiftl9_mod. lia.
Qed.

Lemma land_single_bit (x n : Z) :
  0 <= n -> Z.land x (2 ^ n) = if Z.testbit x n then 2 ^ n else 0.
Proof.
  intros Hn. apply Z.bits_inj'. intros i Hi.
  rewrite Z.land_spec, Z.pow2_bits_eqb by exact Hn.
  destruct (Z.eqb_spec n i) as [->|Hne].
  - destruct (Z.testbit x i); simpl.
    + rewrite Z.pow2_bits_eqb by exact Hn. now rewrite Z.eqb_refl.
    + now rewrite Z.bits_0.
  - rewrite andb_false_r.
    destruct (Z.testbit x n).
    + rewrite Z.pow2_bits_eqb by exact Hn.
      symmetry. now apply Z.eqb_neq.
    + now rewrite Z.bits_0.
Qed.

Lemma ro_mask_mod (ro : Z) : zbc_ro_mask ro = ro mod 2 ^ 6.
Proof.
  unfold zbc_ro_mask. change 0x3f with (2 ^ 6 - 1).
  apply land_pow2_pred. lia.
Qed.

Lemma ro_mask_range (ro : Z) : 0 <= zbc_ro_mask ro <= 0x3f.
Proof.
  rewrite ro_mask_mod.
  pose proof (Z.mod_pos_bound ro (2 ^ 6) eq_refl) as H.
  change (2 ^ 6) with 64 in *. lia.
Qed.

Lemma ro_mask_idem (ro : Z) : zbc_ro_mask (zbc_ro_mask ro) = zbc_ro_mask ro.
Proof.
  unfold zbc_ro_mask.
  rewrite <- Z.land_assoc, Z.land_diag. reflexivity.
Qed.

Lemma ro_mask_testbit (ro i : Z) :
  Z.testbit (zbc_ro_mask ro) i = Z.testbit ro i && (i <? 6).
Proof.
  unfold zbc_ro_mask. change 0x3f with (Z.ones 6).
  destruct (Z.ltb_spec i 0) as [Hneg|Hpos].
  - rewrite !Z.testbit_neg_r by exact Hneg. reflexivity.
  - rewrite Z.land_spec, Z.testbit_ones by lia.
    f_equal. destruct (Z.leb_spec 0 i); [reflexivity | lia].
Qed.

(* ================================================================== *)
(** ** The reporting-option mask and the report-zones path *)

Lemma report_zones_check_cases {St : Type} (zone_table : St -> list zbc_zone)
      (dev : zbc_device St) (st : St) (start ro : Z) :
  zbc_report_zones_check zone_table dev st start ro
    = Answer (ReplyZones [])
  \/ zbc_report_zones_check zone_table dev st start ro
    = Reject ZBC_E_INVALID_ARGUMENT
  \/ zbc_report_zones_check zone_table dev st start ro
    = Forward (CallReportZones start (zbc_ro_mask ro)).
Proof.
  unfold zbc_report_zones_check.
  destruct (zbd_sectors (zbd_info dev) <=? start); [now left|].
  destruct (zone_at (zone_table st) start); [now right; right | now right; left].
Qed.

Lemma report_zones_check_mask {St : Type} (zone_table : St -> list zbc_zone)
      (dev : zbc_device St) (st : St) (start ro : Z) :
  zbc_report_zones_check zone_table dev st start (zbc_ro_mask ro)
  = zbc_report_zones_check zone_table dev st start ro.
Proof.
  unfold zbc_report_zones_check. now rewrite ro_mask_idem.
Qed.

(** C1. The report-zones path forwards the reporting filter masked to
    its low 6 bits. A request that passes validation (its start lies
    within the capacity and is the start of a zone) is forwarded, for
    every filter value, as the backend call with filter
    [zbc_ro_mask ro], and its outcome is what the backend's
    report-zones entry gives for that masked filter. The bits of
    [zbc_ro_mask ro] are the bits 0..5 of [ro] and nothing else.
    Masking 0x7F gives 0x3F, and a request made with 0x7F is the same
    request, with the same outcome, as one made with 0x3F. *)
Theorem report_zones_forwards_masked_filter :
  forall (St : Type) (zone_table : St -> list zbc_zone)
         (dev : zbc_device St) (st : St) (start ro : Z),
    (start < zbd_sectors (zbd_info dev) ->
     zone_at (zone_table st) start <> None ->
     zbc_report_zones_check zone_table dev st start ro
     = Forward (CallReportZones start (zbc_ro_mask ro))
     /\ zbc_report_zones zone_table dev start ro st
        = (result_map ReplyZones
             (fst (zbd_report_zones (zbd_ops dev) start (zbc_ro_mask ro) st)),
           snd (zbd_report_zones (zbd_ops dev) start (zbc_ro_mask ro) st)))
    /\ match zbc_report_zones_check zone_table dev st start ro with
       | Forward c => c = CallReportZones start (zbc_ro_mask ro)
       | _ => True
       end
    /\ (forall i, Z.testbit (zbc_ro_mask ro) i = Z.testbit ro i && (i <? 6))
    /\ zbc_ro_mask ro = ro mod 64
    /\ zbc_ro_mask 0x7F = 0x3F
    /\ zbc_report_zones_check zone_table dev st start 0x7F
       = zbc_report_zones_check zone_table dev st start 0x3F
    /\ zbc_report_zones zone_table dev start 0x7F st
       = zbc_report_zones zone_table dev start 0x3F st.
Proof.
  intros St zone_table dev st start ro.
  assert (Heq : zbc_report_zones_check zone_table dev st start 0x7F
                = zbc_report_zones_check zone_table dev st start 0x3F).
  { rewrite <- (report_zones_check_mask zone_table dev st start 0x7F).
    reflexivity. }
  split; [|split; [|split; [|split; [|split; [|split]]]]].
  - intros Hcap Hzone.
    assert (Hfwd : zbc_report_zones_check zone_table dev st start ro
                   = Forward (CallReportZones start (zbc_ro_mask ro))).
    { unfold zbc_report_zones_check.
      destruct (Z.leb_spec (zbd_sectors (zbd_info dev)) start); [lia|].
      destruct (zone_at (zone_table st) start); [reflexivity|].
      now contradiction Hzone. }
    split; [exact Hfwd|].
    unfold zbc_report_zones. rewrite Hfwd. simpl.
    destruct (zbd_report_zones (zbd_ops dev) start (zbc_ro_mask ro) st);
      reflexivity.
  - destruct (report_zones_check_cases zone_table dev st start ro)
      as [-> | [-> | ->]]; trivial.
  - intros i. apply ro_mask_testbit.
  - apply ro_mask_mod.
  - reflexivity.
  - exact Heq.
  - unfold zbc_report_zones. now rewrite Heq.
Qed.

Lemma report_zones_forwards_masked_filter_witness :
  0 < zbd_sectors
        (zbd_info (scenario_device (zbc_scsi_ops idle_transport)
                                   ZBC_DM_HOST_MANAGED 0))
  /\ zone_at (scenario_zone_table ZoneModel.scenario_disk) 0 <> None
  /\ zbc_report_zones_check scenario_zone_table
       (scenario_device (zbc_scsi_ops idle_transport) ZBC_DM_HOST_MANAGED 0)
       ZoneModel.scenario_disk 0 0x7F
     = Forward (CallReportZones 0 (zbc_ro_mask 0x7F))
  /\ zbc_report_zones scenario_zone_table
       (scenario_device (zbc_scsi_ops idle_transport) ZBC_DM_HOST_MANAGED 0)
       0 0x7F ZoneModel.scenario_disk
     = (result_map ReplyZones
          (fst (zbd_report_zones
                  (zbd_ops (scenario_device (zbc_scsi_ops idle_transport)
                                            ZBC_DM_HOST_MANAGED 0))
                  0 (zbc_ro_mask 0x7F) ZoneModel.scenario_disk)),
        snd (zbd_report_zones
               (zbd_ops (scenario_device (zbc_scsi_ops idle_transport)
                                         ZBC_DM_HOST_MANAGED 0))
               0 (zbc_ro_mask 0x7F) ZoneModel.scenario_disk)).
Proof.
  assert (Hcap : 0 < zbd_sectors
                       (zbd_info (scenario_device
                                    (zbc_scsi_ops idle_transport)
                                    ZBC_DM_HOST_MANAGED 0)))
    by reflexivity.
  assert (Hzone : zone_at (scenario_zone_table ZoneModel.scenario_disk) 0
                  <> None) by discriminate.
  exact (conj Hcap (conj Hzone
    (proj1 (report_zones_forwards_masked_filter
              ZoneModel.disk scenario_zone_table
              (scenario_device (zbc_scsi_ops idle_transport)
                               ZBC_DM_HOST_MANAGED 0)
              ZoneModel.scenario_disk 0 0x7F) Hcap Hzone))).
Defined.

(** The path does reach the backend: on the scenario device a request
    at the first zone with filter 0x7F is forwarded with filter 0x3F. *)
Example report_zones_forwards_on_scenario :
  zbc_report_zones_check scenario_zone_table
    (scenario_device (zbc_scsi_ops idle_transport) ZBC_DM_HOST_MANAGED 0)
    ZoneModel.scenario_disk 0 0x7F
  = Forward (CallReportZones 0 0x3F).
Proof. reflexivity. Qed.

(** C10. The reporting-option mask is idempotent, its result is at most
    0x3F (and not negative), and it leaves every value of the range
    0..0x3F unchanged. *)
Theorem zbc_ro_mask_idempotent_bounded :
  forall ro : Z,
    zbc_ro_mask (zbc_ro_mask ro) = zbc_ro_mask ro
    /\ 0 <= zbc_ro_mask ro <= 0x3F
    /\ (0 <= ro <= 0x3F -> zbc_ro_mask ro = ro).
Proof.
  intros ro. split; [apply ro_mask_idem|].
  split; [apply ro_mask_range|].
  intros Hro. rewrite ro_mask_mod.
  apply Z.mod_small. change (2 ^ 6) with 64. lia.
Qed.

Lemma zbc_ro_mask_idempotent_bounded_witness :
  0 <= 0x2A <= 0x3F
  /\ zbc_ro_mask (zbc_ro_mask 0x2A) = zbc_ro_mask 0x2A
  /\ 0 <= zbc_ro_mask 0x2A <= 0x3F
  /\ zbc_ro_mask 0x2A = 0x2A.
Proof.
  assert (Hr : 0 <= 0x2A <= 0x3F) by lia.
  destruct (zbc_ro_mask_idempotent_bounded 0x2A) as [H1 [H2 H3]].
  exact (conj Hr (conj H1 (conj H2 (H3 Hr)))).
Defined.

(* ================================================================== *)
(** ** The zoned-device test and the zone-operation path *)

Lemma zbc_dev_model_eqb_eq (a b : zbc_dev_model_t) :
  zbc_dev_model_eqb a b = true <-> a = b.
Proof. destruct a, b; simpl; split; congruence. Qed.

Lemma zbc_dev_is_zoned_true {St : Type} (dev : zbc_device St) :
  zbc_dev_is_zoned dev = true
  <-> zbc_dev_model dev = ZBC_DM_HOST_MANAGED
      \/ zbc_dev_model dev = ZBC_DM_HOST_AWARE.
Proof.
  unfold zbc_dev_is_zoned.
  rewrite orb_true_iff, !zbc_dev_model_eqb_eq. reflexivity.
Qed.

(** C3. [zbc_dev_is_zoned] holds of a device exactly when its zone
    model is host-managed or host-aware. For any other model, the
    not-zoned one included, it is false, and a zone operation on such a
    device is rejected as not-zoned without any backend being called:
    the device state is left as it was. *)
Theorem zbc_dev_is_zoned_iff_host_managed_or_aware :
  forall (St : Type) (zone_table : St -> list zbc_zone)
         (dev : zbc_device St) (st : St) (start : Z) (op : zbc_zone_op)
         (flags : Z),
    (zbc_dev_is_zoned dev = true
     <-> zbc_dev_model dev = ZBC_DM_HOST_MANAGED
         \/ zbc_dev_model dev = ZBC_DM_HOST_AWARE)
    /\ (zbc_dev_model dev <> ZBC_DM_HOST_MANAGED ->
        zbc_dev_model dev <> ZBC_DM_HOST_AWARE ->
        zbc_dev_is_zoned dev = false
        /\ zbc_zone_op_check zone_table dev st start op flags
           = Reject ZBC_E_NOT_ZONED
        /\ zbc_zone_operation zone_table dev start op flags st
           = (ZbcErr ZBC_E_NOT_ZONED, st)).
Proof.
  intros St zone_table dev st start op flags.
  split; [apply zbc_dev_is_zoned_true|].
  intros Hm Ha.
  assert (Hz : zbc_dev_is_zoned dev = false).
  { destruct (zbc_dev_is_zoned dev) eqn:E; [|reflexivity].
    apply zbc_dev_is_zoned_true in E. tauto. }
  split; [exact Hz|].
  unfold zbc_zone_operation, zbc_zone_op_check.
  rewrite Hz. simpl. split; reflexivity.
Qed.

Lemma zbc_dev_is_zoned_iff_host_managed_or_aware_witness :
  zbc_dev_model
    (scenario_device (zbc_block_ops idle_transport) ZBC_DM_NOT_ZONED 0)
  <> ZBC_DM_HOST_MANAGED
  /\ zbc_dev_model
       (scenario_device (zbc_block_ops idle_transport) ZBC_DM_NOT_ZONED 0)
     <> ZBC_DM_HOST_AWARE
  /\ zbc_dev_is_zoned
       (scenario_device (zbc_block_ops idle_transport) ZBC_DM_NOT_ZONED 0)
     = false
  /\ zbc_zone_operation scenario_zone_table
       (scenario_device (zbc_block_ops idle_transport) ZBC_DM_NOT_ZONED 0)
       128 ZBC_OP_OPEN_ZONE 0 ZoneModel.scenario_disk
     = (ZbcErr ZBC_E_NOT_ZONED, ZoneModel.scenario_disk).
Proof.
  destruct (zbc_dev_is_zoned_iff_host_managed_or_aware
              ZoneModel.disk scenario_zone_table
              (scenario_device (zbc_block_ops idle_transport)
                               ZBC_DM_NOT_ZONED 0)
              ZoneModel.scenario_disk 128 ZBC_OP_OPEN_ZONE 0) as [_ H].
  assert (Hm : zbc_dev_model
                 (scenario_device (zbc_block_ops idle_transport)
                                  ZBC_DM_NOT_ZONED 0)
               <> ZBC_DM_HOST_MANAGED) by discriminate.
  assert (Ha : zbc_dev_model
                 (scenario_device (zbc_block_ops idle_transport)
                                  ZBC_DM_NOT_ZONED 0)
               <> ZBC_DM_HOST_AWARE) by discriminate.
  destruct (H Hm Ha) as [H1 [_ H3]].
  exact (conj Hm (conj Ha (conj H1 H3))).
Defined.

(** A zoned device does get its zone operations through. *)
Example zone_op_forwarded_on_scenario :
  zbc_zone_op_check scenario_zone_table
    (scenario_device (zbc_block_ops idle_transport) ZBC_DM_HOST_MANAGED 0)
    ZoneModel.scenario_disk 128 ZBC_OP_OPEN_ZONE 0
  = Forward (CallZoneOp 128 ZBC_OP_OPEN_ZONE 0).
Proof. reflexivity. Qed.

(* ================================================================== *)
(** ** Test mode and alignment *)

Lemma zbc_test_mode_testbit {St : Type} (dev : zbc_device St) :
  zbc_test_mode true dev = Z.testbit (zbd_flags dev) 31.
Proof.
  unfold zbc_test_mode, zbc_test_mode_val, ZBC_DEVTEST.
  change 0x80000000 with (2 ^ 31).
  rewrite land_single_bit by lia.
  destruct (Z.testbit (zbd_flags dev) 31); reflexivity.
Qed.

(** C4. Without [HAVE_DEVTEST] the test-mode predicate is false for
    every device handle, whatever its flags, so a read or write is
    forwarded only when its offset passes the alignment check and is
    rejected as an invalid argument otherwise. With [HAVE_DEVTEST] the
    predicate is true exactly when bit 31 of the flags, the
    [ZBC_DEVTEST] bit 0x80000000, is set. *)
Theorem zbc_test_mode_needs_opt_in :
  forall (St : Type) (dev : zbc_device St) (c : backend_call) (offset : Z),
    zbc_test_mode false dev = false
    /\ zbc_rw_check false dev c offset
       = (if zbc_dev_sect_laligned dev offset then Forward c
          else Reject ZBC_E_INVALID_ARGUMENT)
    /\ ZBC_DEVTEST = 2 ^ 31
    /\ zbc_test_mode true dev = Z.testbit (zbd_flags dev) 31.
Proof.
  intros St dev c offset.
  split; [reflexivity|].
  split; [reflexivity|].
  split; [reflexivity|].
  apply zbc_test_mode_testbit.
Qed.

(** With the flag set and no opt-in of the build, a misaligned read is
    still rejected; with the opt-in it is forwarded as it is. *)
Example test_mode_flag_alone_does_not_bypass :
  zbc_pread_check false
    (scenario_device (zbc_scsi_ops idle_transport) ZBC_DM_HOST_MANAGED
                     ZBC_DEVTEST) 8 3
  = Reject ZBC_E_INVALID_ARGUMENT
  /\ zbc_pread_check true
       (scenario_device (zbc_scsi_ops idle_transport) ZBC_DM_HOST_MANAGED
                        ZBC_DEVTEST) 8 3
     = Forward (CallPread 8 3).
Proof. split; reflexivity. Qed.

Lemma laligned_pow2 {St : Type} (dev : zbc_device St) (sect k : Z) :
  0 <= k < 32 -> zbd_lblock_size (zbd_info dev) = 2 ^ k ->
  zbc_dev_sect_laligned dev sect
  = ((sect * 512) mod zbd_lblock_size (zbd_info dev) =? 0).
Proof.
  intros Hk Hbs. unfold zbc_dev_sect_laligned.
  now rewrite (sect_aligned_pow2 sect _ k Hk Hbs).
Qed.

Lemma paligned_pow2 {St : Type} (dev : zbc_device St) (sect k : Z) :
  0 <= k < 32 -> zbd_pblock_size (zbd_info dev) = 2 ^ k ->
  zbc_dev_sect_paligned dev sect
  = ((sect * 512) mod zbd_pblock_size (zbd_info dev) =? 0).
Proof.
  intros Hk Hbs. unfold zbc_dev_sect_paligned.
  now rewrite (sect_aligned_pow2 sect _ k Hk Hbs).
Qed.

(** C5. For a device whose logical block size is a power of two (a
    32-bit quantity, so 2^k with k < 32), the logical-alignment check
    accepts a sector offset exactly when the byte offset [sect * 512]
    is a multiple of the logical block size. A read or write whose
    offset fails the check while test mode is off gets an
    invalid-argument error, reaches no backend and leaves the device
    state as it was; otherwise the request is forwarded unmodified. *)
Theorem zbc_dev_sect_laligned_iff_multiple :
  forall (St : Type) (HAVE_DEVTEST : bool) (dev : zbc_device St)
         (sect k count : Z) (st : St),
    0 <= k < 32 ->
    zbd_lblock_size (zbd_info dev) = 2 ^ k ->
    (zbc_dev_sect_laligned dev sect = true
     <-> (sect * 512) mod zbd_lblock_size (zbd_info dev) = 0)
    /\ zbc_pread_check HAVE_DEVTEST dev count sect
       = (if zbc_test_mode HAVE_DEVTEST dev
             || ((sect * 512) mod zbd_lblock_size (zbd_info dev) =? 0)
          then Forward (CallPread count sect)
          else Reject ZBC_E_INVALID_ARGUMENT)
    /\ zbc_pwrite_check HAVE_DEVTEST dev count sect
       = (if zbc_test_mode HAVE_DEVTEST dev
             || ((sect * 512) mod zbd_lblock_size (zbd_info dev) =? 0)
          then Forward (CallPwrite count sect)
          else Reject ZBC_E_INVALID_ARGUMENT)
    /\ zbc_pread HAVE_DEVTEST dev count sect st
       = (if zbc_test_mode HAVE_DEVTEST dev
             || ((sect * 512) mod zbd_lblock_size (zbd_info dev) =? 0)
          then backend_invoke (zbd_ops dev) (CallPread count sect) st
          else (ZbcErr ZBC_E_INVALID_ARGUMENT, st))
    /\ zbc_pwrite HAVE_DEVTEST dev count sect st
       = (if zbc_test_mode HAVE_DEVTEST dev
             || ((sect * 512) mod zbd_lblock_size (zbd_info dev) =? 0)
          then backend_invoke (zbd_ops dev) (CallPwrite count sect) st
          else (ZbcErr ZBC_E_INVALID_ARGUMENT, st)).
Proof.
  intros St HAVE_DEVTEST dev sect k count st Hk Hbs.
  pose proof (laligned_pow2 dev sect k Hk Hbs) as Hal.
  split.
  { rewrite Hal. apply Z.eqb_eq. }
  unfold zbc_pread, zbc_pwrite, zbc_pread_check, zbc_pwrite_check,
    zbc_rw_check.
  rewrite Hal.
  destruct (zbc_test_mode HAVE_DEVTEST dev); simpl;
    destruct ((sect * 512) mod zbd_lblock_size (zbd_info dev) =? 0);
    simpl; repeat split; reflexivity.
Qed.

Lemma zbc_dev_sect_laligned_iff_multiple_witness :
  0 <= 12 < 32
  /\ zbd_lblock_size
       (zbd_info (scenario_device (zbc_ata_ops idle_transport)
                                  ZBC_DM_HOST_MANAGED 0)) = 2 ^ 12
  /\ (zbc_dev_sect_laligned
        (scenario_device (zbc_ata_ops idle_transport) ZBC_DM_HOST_MANAGED 0)
        3 = true
      <-> (3 * 512) mod 4096 = 0)
  /\ zbc_pwrite false
       (scenario_device (zbc_ata_ops idle_transport) ZBC_DM_HOST_MANAGED 0)
       8 3 ZoneModel.scenario_disk
     = (ZbcErr ZBC_E_INVALID_ARGUMENT, ZoneModel.scenario_disk).
Proof.
  assert (Hk : 0 <= 12 < 32) by lia.
  assert (Hbs : zbd_lblock_size
                  (zbd_info (scenario_device (zbc_ata_ops idle_transport)
                                             ZBC_DM_HOST_MANAGED 0))
                = 2 ^ 12) by reflexivity.
  destruct (zbc_dev_sect_laligned_iff_multiple
              ZoneModel.disk false
              (scenario_device (zbc_ata_ops idle_transport)
                               ZBC_DM_HOST_MANAGED 0)
              3 12 8 ZoneModel.scenario_disk Hk Hbs)
    as [H1 [_ [_ [_ H5]]]].
  exact (conj Hk (conj Hbs (conj H1 H5))).
Defined.

(** C9. On a device whose block sizes are powers of two with the
    physical one at least the logical one, a sector offset that passes
    the physical-block alignment check passes the logical-block one. *)
Theorem paligned_implies_laligned :
  forall (St : Type) (dev : zbc_device St) (sect a b : Z),
    0 <= a <= b -> b < 32 ->
    zbd_lblock_size (zbd_info dev) = 2 ^ a ->
    zbd_pblock_size (zbd_info dev) = 2 ^ b ->
    zbc_dev_sect_paligned dev sect = true ->
    zbc_dev_sect_laligned dev sect = true.
Proof.
  intros St dev sect a b Hab Hb Hl Hp Hpa.
  rewrite (paligned_pow2 dev sect b) in Hpa by (lia || exact Hp).
  rewrite (laligned_pow2 dev sect a) by (lia || exact Hl).
  apply Z.eqb_eq in Hpa. apply Z.eqb_eq.
  rewrite Hl, Hp in *.
  rewrite <- (Z.mod_mod_divide (sect * 512) (2 ^ b) (2 ^ a)).
  - rewrite Hpa. apply Z.mod_0_l.
    apply Z.pow_nonzero; lia.
  - exists (2 ^ (b - a)).
    rewrite <- Z.pow_add_r by lia. f_equal. lia.
Qed.

Lemma paligned_implies_laligned_witness :
  0 <= 9 <= 12
  /\ 12 < 32
  /\ zbd_lblock_size (zbd_info device_512e) = 2 ^ 9
  /\ zbd_pblock_size (zbd_info device_512e) = 2 ^ 12
  /\ zbc_dev_sect_paligned device_512e 16 = true
  /\ zbc_dev_sect_laligned device_512e 16 = true.
Proof.
  assert (Hab : 0 <= 9 <= 12) by lia.
  assert (Hb : 12 < 32) by lia.
  assert (Hl : zbd_lblock_size (zbd_info device_512e) = 2 ^ 9)
    by reflexivity.
  assert (Hp : zbd_pblock_size (zbd_info device_512e) = 2 ^ 12)
    by reflexivity.
  assert (Hpa : zbc_dev_sect_paligned device_512e 16 = true) by reflexivity.
  exact (conj Hab (conj Hb (conj Hl (conj Hp (conj Hpa
    (paligned_implies_laligned ZoneModel.disk device_512e 16 9 12
                               Hab Hb Hl Hp Hpa)))))).
Defined.

(* ================================================================== *)
(** ** Levelled logging *)

Lemma app_one_neq {A : Type} (l : list A) (x : A) : l ++ [x] <> l.
Proof.
  intros H. apply (f_equal (@List.length A)) in H.
  rewrite length_app in H. simpl in H. lia.
Qed.

(** C7. A message of level [l] is printed exactly when [l] is at most
    the current log level: it is appended to the output when [l <= L]
    and the output is left as it is when [L < l]. This holds for every
    level, the four message levels included; with the level at
    [ZBC_LOG_NONE] none of the warning, error, info and debug macros
    prints anything. *)
Theorem zbc_print_level_emits_iff_le :
  forall (l L : Z) (s : stream) (text : string) (out : output),
    (zbc_print_level l s text L out
     = out ++ [(s, String.append "(libzbc) " text)] <-> l <= L)
    /\ (zbc_print_level l s text L out = out <-> L < l)
    /\ (zbc_warning text L out <> out <-> ZBC_LOG_WARNING <= L)
    /\ (zbc_error text L out <> out <-> ZBC_LOG_ERROR <= L)
    /\ (zbc_info text L out <> out <-> ZBC_LOG_INFO <= L)
    /\ (zbc_debug text L out <> out <-> ZBC_LOG_DEBUG <= L)
    /\ zbc_warning text ZBC_LOG_NONE out = out
    /\ zbc_error text ZBC_LOG_NONE out = out
    /\ zbc_info text ZBC_LOG_NONE out = out
    /\ zbc_debug text ZBC_LOG_NONE out = out.
Proof.
  intros l L s text out.
  assert (Hgen : forall l' s' t',
             zbc_print_level l' s' t' L out <> out <-> l' <= L).
  { intros l' s' t'. unfold zbc_print_level, zbc_print.
    destruct (Z.leb_spec l' L) as [Hle|Hgt]; split; intros H.
    - exact Hle.
    - apply app_one_neq.
    - now contradiction H.
    - lia. }
  split; [|split].
  - unfold zbc_print_level, zbc_print.
    destruct (Z.leb_spec l L) as [Hle|Hgt]; split; intros H.
    + exact Hle.
    + reflexivity.
    + symmetry in H. now apply app_one_neq in H.
    + lia.
  - unfold zbc_print_level, zbc_print.
    destruct (Z.leb_spec l L) as [Hle|Hgt]; split; intros H.
    + now apply app_one_neq in H.
    + lia.
    + exact Hgt.
    + reflexivity.
  - repeat (split; [apply Hgen|]).
    repeat (split; [reflexivity|]). reflexivity.
Qed.

(** At level warning an error message is not printed: the level error
    is numbered above the level warning. *)
Example error_silent_at_level_warning :
  zbc_error "I/O failed" ZBC_LOG_WARNING [] = []
  /\ zbc_warning "cache off" ZBC_LOG_WARNING []
     = [(stderr, "(libzbc) [WARNING] cache off"%string)].
Proof. split; reflexivity. Qed.

(* ================================================================== *)
(** ** The backend-optional calls *)

(** C8. On a device handle bound to the table of a non-emulation
    backend (kernel block, ATA, SCSI), [zbc_set_zones] and
    [zbc_set_write_pointer] fail with the unsupported error, without
    any backend being called and with the device state left as it was.
    On the emulation backend both are forwarded to the backend's entry;
    so either call can succeed only there. *)
Theorem optional_calls_only_on_emulation :
  forall (St : Type)
         (block_tr ata_tr scsi_tr fake_tr : zbc_transport St)
         (fake_set_zones fake_set_wp : Z -> Z -> St -> zbc_result unit * St)
         (b : zbc_backend) (dev : zbc_device St) (x y : Z) (st : St),
    zbd_ops dev
    = zbc_backend_ops block_tr ata_tr scsi_tr fake_tr
                      fake_set_zones fake_set_wp b ->
    zbc_set_zones_check dev x y
    = (if is_emulation b then Forward (CallSetZones x y)
       else Reject ZBC_E_UNSUPPORTED)
    /\ zbc_set_write_pointer_check dev x y
       = (if is_emulation b then Forward (CallSetWp x y)
          else Reject ZBC_E_UNSUPPORTED)
    /\ zbc_set_zones dev x y st
       = (if is_emulation b
          then (result_map (fun _ => ReplyDone) (fst (fake_set_zones x y st)),
                snd (fake_set_zones x y st))
          else (ZbcErr ZBC_E_UNSUPPORTED, st))
    /\ zbc_set_write_pointer dev x y st
       = (if is_emulation b
          then (result_map (fun _ => ReplyDone) (fst (fake_set_wp x y st)),
                snd (fake_set_wp x y st))
          else (ZbcErr ZBC_E_UNSUPPORTED, st))
    /\ (is_ok (fst (zbc_set_zones dev x y st)) = true -> is_emulation b = true)
    /\ (is_ok (fst (zbc_set_write_pointer dev x y st)) = true ->
        is_emulation b = true).
Proof.
  intros St block_tr ata_tr scsi_tr fake_tr fake_set_zones fake_set_wp
         b dev x y st Hops.
  unfold zbc_set_zones, zbc_set_write_pointer, zbc_set_zones_check,
    zbc_set_write_pointer_check, zbc_run, backend_invoke.
  rewrite Hops.
  destruct b; simpl;
    try (destruct (fake_set_zones x y st) as [r1 s1]);
    try (destruct (fake_set_wp x y st) as [r2 s2]);
    simpl; repeat split; intros; try reflexivity; try discriminate.
Qed.

Lemma optional_calls_only_on_emulation_witness :
  zbd_ops (scenario_device (scenario_backend_ops ZBC_BACKEND_ATA)
                           ZBC_DM_HOST_MANAGED 0)
  = scenario_backend_ops ZBC_BACKEND_ATA
  /\ zbc_set_zones
       (scenario_device (scenario_backend_ops ZBC_BACKEND_ATA)
                        ZBC_DM_HOST_MANAGED 0)
       256 128 ZoneModel.scenario_disk
     = (ZbcErr ZBC_E_UNSUPPORTED, ZoneModel.scenario_disk)
  /\ zbc_set_write_pointer
       (scenario_device (scenario_backend_ops ZBC_BACKEND_ATA)
                        ZBC_DM_HOST_MANAGED 0)
       256 300 ZoneModel.scenario_disk
     = (ZbcErr ZBC_E_UNSUPPORTED, ZoneModel.scenario_disk).
Proof.
  assert (Hops : zbd_ops (scenario_device
                            (scenario_backend_ops ZBC_BACKEND_ATA)
                            ZBC_DM_HOST_MANAGED 0)
                 = scenario_backend_ops ZBC_BACKEND_ATA) by reflexivity.
  refine (conj Hops _).
  split.
  - exact (proj1 (proj2 (proj2
      (optional_calls_only_on_emulation
         ZoneModel.disk idle_transport idle_transport idle_transport
         idle_transport (fun _ _ st => (ZbcOk tt, st))
         (fun _ _ st => (ZbcOk tt, st)) ZBC_BACKEND_ATA
         (scenario_device (scenario_backend_ops ZBC_BACKEND_ATA)
                          ZBC_DM_HOST_MANAGED 0)
         256 128 ZoneModel.scenario_disk Hops)))).
  - exact (proj1 (proj2 (proj2 (proj2
      (optional_calls_only_on_emulation
         ZoneModel.disk idle_transport idle_transport idle_transport
         idle_transport (fun _ _ st => (ZbcOk tt, st))
         (fun _ _ st => (ZbcOk tt, st)) ZBC_BACKEND_ATA
         (scenario_device (scenario_backend_ops ZBC_BACKEND_ATA)
                          ZBC_DM_HOST_MANAGED 0)
         256 300 ZoneModel.scenario_disk Hops))))).
Defined.

(** On the emulation backend the two calls go through. *)
Example optional_calls_on_emulation :
  zbc_set_write_pointer
    (scenario_device (scenario_backend_ops ZBC_BACKEND_FAKE)
                     ZBC_DM_HOST_MANAGED 0)
    256 300 ZoneModel.scenario_disk
  = (ZbcOk ReplyDone, ZoneModel.scenario_disk).
Proof. reflexivity. Qed.

(* ================================================================== *)
(** ** More on the reporting-option mask *)

(** X1. The mask keeps bits 0..5 and drops every bit above them:
    or-ing any value shifted past bit 5 into a reporting option (a flag
    such as 0x80, say) does not change the masked option, and the mask
    commutes with the bitwise or, and, and exclusive or of two
    options. *)
Theorem zbc_ro_mask_drops_high_bits :
  forall ro hi a b : Z,
    zbc_ro_mask (Z.lor ro (Z.shiftl hi 6)) = zbc_ro_mask ro
    /\ zbc_ro_mask (Z.lor a b) = Z.lor (zbc_ro_mask a) (zbc_ro_mask b)
    /\ zbc_ro_mask (Z.land a b) = Z.land (zbc_ro_mask a) (zbc_ro_mask b)
    /\ zbc_ro_mask (Z.lxor a b) = Z.lxor (zbc_ro_mask a) (zbc_ro_mask b).
Proof.
  intros ro hi a b.
  split; [|split; [|split]]; apply Z.bits_inj'; intros i Hi;
    rewrite ?ro_mask_testbit, ?Z.lor_spec, ?Z.land_spec, ?Z.lxor_spec,
      ?ro_mask_testbit.
  - destruct (Z.ltb_spec i 6) as [Hlt|Hge].
    + rewrite Z.shiftl_spec_low by lia. now rewrite orb_false_r.
    + now rewrite !andb_false_r.
  - destruct (i <? 6), (Z.testbit a i), (Z.testbit b i); reflexivity.
  - destruct (i <? 6), (Z.testbit a i), (Z.testbit b i); reflexivity.
  - destruct (i <? 6), (Z.testbit a i), (Z.testbit b i); reflexivity.
Qed.

(* ================================================================== *)
(** ** More on the alignment macros *)

Lemma u32_range (x : Z) : 0 <= u32 x < 2 ^ 32.
Proof. unfold u32, wrap. apply Z.mod_pos_bound. reflexivity. Qed.

Lemma land_low32 (a m : Z) :
  0 <= m < 2 ^ 32 -> Z.land a m = Z.land (a mod 2 ^ 32) m.
Proof.
  intros Hm.
  rewrite <- (Z.land_ones a 32) by lia.
  rewrite <- Z.land_assoc.
  rewrite (Z.land_comm (Z.ones 32) m).
  rewrite (Z.land_ones m 32) by lia.
  now rewrite (Z.mod_small m) by exact Hm.
Qed.

(** The conjunction both alignment macros compute only sees the low 32
    bits of the byte offset, whatever the block size. *)
Lemma sect_mask_low32 (sect bs : Z) :
  Z.land (u64 (Z.shiftl sect 9)) (u32 (bs - 1))
  = Z.land ((sect * 512) mod 2 ^ 32) (u32 (bs - 1)).
Proof.
  rewrite land_low32 by apply u32_range.
  f_equal. unfold u64, wrap.
  rewrite Z.shiftl_mul_pow2 by lia. change (2 ^ 9) with 512.
  apply Z.mod_mod_divide.
  exists (2 ^ 32). reflexivity.
Qed.

Lemma sect_mask_period (sect n bs : Z) :
  Z.land (u64 (Z.shiftl (sect + n * 2 ^ 23) 9)) (u32 (bs - 1))
  = Z.land (u64 (Z.shiftl sect 9)) (u32 (bs - 1)).
Proof.
  rewrite !sect_mask_low32. f_equal.
  replace ((sect + n * 2 ^ 23) * 512) with (sect * 512 + n * 2 ^ 32)
    by (change (2 ^ 32) with (2 ^ 23 * 512); ring).
  apply Z.mod_add. discriminate.
Qed.

(** X2. Whatever the block sizes of the device (powers of two or not,
    zero included), both alignment checks depend on the low 23 bits of
    the sector number only: adding a multiple of 2^23 sectors (4 GiB)
    to an offset does not change the answer. Sector 0 passes both
    checks on every device. *)
Theorem alignment_depends_on_low_23_bits :
  forall (St : Type) (dev : zbc_device St) (sect n : Z),
    zbc_dev_sect_laligned dev (sect + n * 2 ^ 23)
    = zbc_dev_sect_laligned dev sect
    /\ zbc_dev_sect_paligned dev (sect + n * 2 ^ 23)
       = zbc_dev_sect_paligned dev sect
    /\ zbc_dev_sect_laligned dev 0 = true
    /\ zbc_dev_sect_paligned dev 0 = true.
Proof.
  intros St dev sect n.
  unfold zbc_dev_sect_laligned, zbc_dev_sect_paligned.
  rewrite !sect_mask_period.
  split; [reflexivity|]. split; [reflexivity|].
  rewrite !sect_mask_low32. simpl (0 * 512).
  rewrite Z.mod_0_l by discriminate.
  rewrite !Z.land_0_l. split; reflexivity.
Qed.

(** The byte offset of a sector is a multiple of 2^k exactly when the
    sector number is a multiple of the sectors a block of 2^k bytes
    holds (one, for a block no larger than a sector). *)
Lemma byte_offset_mod_pow2 (sect k : Z) :
  0 <= k ->
  ((sect * 512) mod 2 ^ k =? 0) = (sect mod 2 ^ Z.max 0 (k - 9) =? 0).
Proof.
  intros Hk.
  destruct (Z_le_gt_dec k 9) as [Hle|Hgt].
  - rewrite Z.max_l by lia. change (2 ^ 0) with 1.
    rewrite Z.mod_1_r.
    replace (sect * 512) with (sect * 2 ^ (9 - k) * 2 ^ k).
    + rewrite Z.mod_mul by (apply Z.pow_nonzero; lia). reflexivity.
    + rewrite <- Z.mul_assoc, <- Z.pow_add_r by lia.
      replace (9 - k + k) with 9 by lia. reflexivity.
  - rewrite Z.max_r by lia.
    replace (2 ^ k) with (2 ^ (k - 9) * 512).
    + rewrite Z.mul_mod_distr_r by
        (try discriminate; apply Z.pow_nonzero; lia).
      destruct (Z.eqb_spec (sect mod 2 ^ (k - 9)) 0) as [->|Hne].
      * reflexivity.
      * apply Z.eqb_neq. lia.
    + change 512 with (2 ^ 9). rewrite <- Z.pow_add_r by lia.
      f_equal. lia.
Qed.

(** X3. On a device whose block sizes are powers of two, a sector
    offset passes an alignment check exactly when it is a multiple of
    the number of 512-byte sectors in a block: every sector for a block
    of at most 512 bytes, every 8th sector for a block of 4096 bytes,
    and so on. *)
Theorem alignment_iff_multiple_of_sectors_per_block :
  forall (St : Type) (dev : zbc_device St) (sect kl kp : Z),
    0 <= kl < 32 -> zbd_lblock_size (zbd_info dev) = 2 ^ kl ->
    0 <= kp < 32 -> zbd_pblock_size (zbd_info dev) = 2 ^ kp ->
    zbc_dev_sect_laligned dev sect
    = (sect mod 2 ^ Z.max 0 (kl - 9) =? 0)
    /\ zbc_dev_sect_paligned dev sect
       = (sect mod 2 ^ Z.max 0 (kp - 9) =? 0).
Proof.
  intros St dev sect kl kp Hkl Hl Hkp Hp.
  rewrite (laligned_pow2 dev sect kl Hkl Hl), Hl.
  rewrite (paligned_pow2 dev sect kp Hkp Hp), Hp.
  split; apply byte_offset_mod_pow2; lia.
Qed.

Lemma alignment_iff_multiple_of_sectors_per_block_witness :
  0 <= 9 < 32
  /\ zbd_lblock_size (zbd_info device_512e) = 2 ^ 9
  /\ 0 <= 12 < 32
  /\ zbd_pblock_size (zbd_info device_512e) = 2 ^ 12
  /\ zbc_dev_sect_laligned device_512e 13 = (13 mod 2 ^ Z.max 0 (9 - 9) =? 0)
  /\ zbc_dev_sect_paligned device_512e 13
     = (13 mod 2 ^ Z.max 0 (12 - 9) =? 0).
Proof.
  assert (Hkl : 0 <= 9 < 32) by lia.
  assert (Hl : zbd_lblock_size (zbd_info device_512e) = 2 ^ 9)
    by reflexivity.
  assert (Hkp : 0 <= 12 < 32) by lia.
  assert (Hp : zbd_pblock_size (zbd_info device_512e) = 2 ^ 12)
    by reflexivity.
  exact (conj Hkl (conj Hl (conj Hkp (conj Hp
    (alignment_iff_multiple_of_sectors_per_block
       ZoneModel.disk device_512e 13 9 12 Hkl Hl Hkp Hp))))).
Defined.

(** X4. A block size of 0 does not make the checks fail or accept
    everything: [0 - 1] wraps to 0xFFFFFFFF, so the check looks at the
    whole low 32 bits of the byte offset and passes exactly the sectors
    that are multiples of 2^23. *)
Theorem alignment_with_zero_block_size :
  forall (St : Type) (dev : zbc_device St) (sect : Z),
    (zbd_lblock_size (zbd_info dev) = 0 ->
     zbc_dev_sect_laligned dev sect = (sect mod 2 ^ 23 =? 0))
    /\ (zbd_pblock_size (zbd_info dev) = 0 ->
        zbc_dev_sect_paligned dev sect = (sect mod 2 ^ 23 =? 0)).
Proof.
  intros St dev sect.
  assert (H0 : forall bs, bs = 0 ->
             (Z.land (u64 (Z.shiftl sect 9)) (u32 (bs - 1)) =? 0)
             = (sect mod 2 ^ 23 =? 0)).
  { intros bs ->. rewrite sect_mask_low32.
    change (u32 (0 - 1)) with (2 ^ 32 - 1).
    rewrite land_pow2_pred by lia.
    rewrite Z.mod_mod by discriminate.
    apply (byte_offset_mod_pow2 sect 32). lia. }
  split; intros Hbs; [unfold zbc_dev_sect_laligned
                     | unfold zbc_dev_sect_paligned]; now apply H0.
Qed.

Lemma alignment_with_zero_block_size_witness :
  zbd_lblock_size (zbd_info (device_with_blocks 0 0)) = 0
  /\ zbd_pblock_size (zbd_info (device_with_blocks 0 0)) = 0
  /\ zbc_dev_sect_laligned (device_with_blocks 0 0) 8 = (8 mod 2 ^ 23 =? 0)
  /\ zbc_dev_sect_paligned (device_with_blocks 0 0) 8 = (8 mod 2 ^ 23 =? 0).
Proof.
  assert (Hl : zbd_lblock_size (zbd_info (device_with_blocks 0 0)) = 0)
    by reflexivity.
  assert (Hp : zbd_pblock_size (zbd_info (device_with_blocks 0 0)) = 0)
    by reflexivity.
  destruct (alignment_with_zero_block_size
              ZoneModel.disk (device_with_blocks 0 0) 8) as [H1 H2].
  exact (conj Hl (conj Hp (conj (H1 Hl) (H2 Hp)))).
Defined.

Lemma laligned_divide {St : Type} (dev : zbc_device St) (sect k : Z) :
  0 <= k < 32 -> zbd_lblock_size (zbd_info dev) = 2 ^ k ->
  zbc_dev_sect_laligned dev sect = true <-> (2 ^ k | sect * 512).
Proof.
  intros Hk Hbs.
  rewrite (laligned_pow2 dev sect k Hk Hbs), Hbs, Z.eqb_eq.
  apply Z.mod_divide. apply Z.pow_nonzero; lia.
Qed.

(** X5. On a device whose logical block size is a power of two, the
    aligned sector offsets are closed under sum, difference and
    multiples: a request that starts at an aligned offset and has an
    aligned length ends at an aligned offset. *)
Theorem laligned_closed_under_sum :
  forall (St : Type) (dev : zbc_device St) (k a b n : Z),
    0 <= k < 32 ->
    zbd_lblock_size (zbd_info dev) = 2 ^ k ->
    zbc_dev_sect_laligned dev a = true ->
    zbc_dev_sect_laligned dev b = true ->
    zbc_dev_sect_laligned dev (a + b) = true
    /\ zbc_dev_sect_laligned dev (a - b) = true
    /\ zbc_dev_sect_laligned dev (a * n) = true.
Proof.
  intros St dev k a b n Hk Hbs Ha Hb.
  apply (laligned_divide dev a k Hk Hbs) in Ha.
  apply (laligned_divide dev b k Hk Hbs) in Hb.
  split; [|split]; apply (laligned_divide dev _ k Hk Hbs).
  - rewrite Z.mul_add_distr_r. now apply Z.divide_add_r.
  - rewrite Z.mul_sub_distr_r. now apply Z.divide_sub_r.
  - replace (a * n * 512) with (n * (a * 512)) by ring.
    now apply Z.divide_mul_r.
Qed.

Lemma laligned_closed_under_sum_witness :
  0 <= 12 < 32
  /\ zbd_lblock_size (zbd_info (device_with_blocks 4096 4096)) = 2 ^ 12
  /\ zbc_dev_sect_laligned (device_with_blocks 4096 4096) 256 = true
  /\ zbc_dev_sect_laligned (device_with_blocks 4096 4096) 8 = true
  /\ zbc_dev_sect_laligned (device_with_blocks 4096 4096) (256 + 8) = true
  /\ zbc_dev_sect_laligned (device_with_blocks 4096 4096) (256 - 8) = true
  /\ zbc_dev_sect_laligned (device_with_blocks 4096 4096) (256 * 3) = true.
Proof.
  assert (Hk : 0 <= 12 < 32) by lia.
  assert (Hbs : zbd_lblock_size (zbd_info (device_with_blocks 4096 4096))
                = 2 ^ 12) by reflexivity.
  assert (Ha : zbc_dev_sect_laligned (device_with_blocks 4096 4096) 256
               = true) by reflexivity.
  assert (Hb : zbc_dev_sect_laligned (device_with_blocks 4096 4096) 8
               = true) by reflexivity.
  exact (conj Hk (conj Hbs (conj Ha (conj Hb
    (laligned_closed_under_sum ZoneModel.disk
       (device_with_blocks 4096 4096) 12 256 8 3 Hk Hbs Ha Hb))))).
Defined.

(** X6. Logical alignment does not give physical alignment: when the
    physical block is larger than the logical one and larger than a
    sector, the offset of half a physical block passes the logical
    check and fails the physical one. *)
Theorem laligned_does_not_imply_paligned :
  forall (St : Type) (dev : zbc_device St) (a b : Z),
    0 <= a < b -> 10 <= b < 32 ->
    zbd_lblock_size (zbd_info dev) = 2 ^ a ->
    zbd_pblock_size (zbd_info dev) = 2 ^ b ->
    zbc_dev_sect_laligned dev (2 ^ (b - 10)) = true
    /\ zbc_dev_sect_paligned dev (2 ^ (b - 10)) = false.
Proof.
  intros St dev a b Hab Hb Hl Hp.
  assert (Hhalf : 2 ^ (b - 10) * 512 = 2 ^ (b - 1)).
  { change 512 with (2 ^ 9). rewrite <- Z.pow_add_r by lia.
    f_equal. lia. }
  rewrite (laligned_pow2 dev _ a) by (lia || exact Hl).
  rewrite (paligned_pow2 dev _ b) by (lia || exact Hp).
  rewrite Hl, Hp, Hhalf. split.
  - apply Z.eqb_eq.
    replace (2 ^ (b - 1)) with (2 ^ (b - 1 - a) * 2 ^ a).
    + apply Z.mod_mul. apply Z.pow_nonzero; lia.
    + rewrite <- Z.pow_add_r by lia. f_equal. lia.
  - apply Z.eqb_neq.
    assert (0 < 2 ^ (b - 1)) by (apply Z.pow_pos_nonneg; lia).
    assert (2 ^ (b - 1) < 2 ^ b) by (apply Z.pow_lt_mono_r; lia).
    rewrite Z.mod_small; lia.
Qed.

Lemma laligned_does_not_imply_paligned_witness :
  0 <= 9 < 12
  /\ 10 <= 12 < 32
  /\ zbd_lblock_size (zbd_info device_512e) = 2 ^ 9
  /\ zbd_pblock_size (zbd_info device_512e) = 2 ^ 12
  /\ zbc_dev_sect_laligned device_512e (2 ^ (12 - 10)) = true
  /\ zbc_dev_sect_paligned device_512e (2 ^ (12 - 10)) = false.
Proof.
  assert (Hab : 0 <= 9 < 12) by lia.
  assert (Hb : 10 <= 12 < 32) by lia.
  assert (Hl : zbd_lblock_size (zbd_info device_512e) = 2 ^ 9)
    by reflexivity.
  assert (Hp : zbd_pblock_size (zbd_info device_512e) = 2 ^ 12)
    by reflexivity.
  exact (conj Hab (conj Hb (conj Hl (conj Hp
    (laligned_does_not_imply_paligned ZoneModel.disk device_512e 9 12
                                      Hab Hb Hl Hp))))).
Defined.

(** A positive divisor of a power of two is a power of two. *)
Lemma pow2_divisor (n : Z) :
  0 <= n -> forall d, 0 < d -> (d | 2 ^ n) -> exists k, 0 <= k /\ d = 2 ^ k.
Proof.
  intros Hn. pattern n. apply natlike_ind; [| |exact Hn]; clear n Hn.
  - intros d Hd Hdiv. change (2 ^ 0) with 1 in Hdiv.
    exists 0. split; [lia|].
    apply Z.divide_1_r in Hdiv. change (2 ^ 0) with 1. lia.
  - intros m Hm IH d Hd Hdiv.
    rewrite Z.pow_succ_r in Hdiv by exact Hm.
    destruct (Z.even d) eqn:E.
    + apply Z.even_spec in E. destruct E as [d' ->].
      apply Z.mul_divide_cancel_l in Hdiv; [|discriminate].
      destruct (IH d' ltac:(lia) Hdiv) as [k [Hk ->]].
      exists (Z.succ k). split; [lia|].
      now rewrite Z.pow_succ_r.
    + apply IH; [exact Hd|].
      apply (Z.gauss d 2 (2 ^ m) Hdiv).
      pose proof (Z.gcd_divide_l d 2) as Hgd.
      pose proof (Z.gcd_divide_r d 2) as Hg2.
      pose proof (Z.gcd_nonneg d 2) as Hg0.
      apply Z.divide_pos_le in Hg2; [|lia].
      assert (Hcases : Z.gcd d 2 = 0 \/ Z.gcd d 2 = 1 \/ Z.gcd d 2 = 2)
        by lia.
      destruct Hcases as [Hz | [H1 | H2]].
      * apply Z.gcd_eq_0_r in Hz. discriminate.
      * exact H1.
      * rewrite H2 in Hgd. destruct Hgd as [q Hq].
        assert (Hev : Z.even d = true)
          by (apply Z.even_spec; exists q; lia).
        congruence.
Qed.

Lemma is_pow2_pow2 (k : Z) : 0 <= k -> is_pow2 (2 ^ k) = true.
Proof.
  intros Hk. unfold is_pow2.
  apply andb_true_iff. split.
  - apply Z.ltb_lt. apply Z.pow_pos_nonneg; lia.
  - apply Z.eqb_eq. rewrite land_pow2_pred by exact Hk.
    apply Z.mod_same. apply Z.pow_nonzero; lia.
Qed.

(** X7. The alignment check is a divisibility test for powers of two
    only. For every logical block size that fits the 32-bit field and
    is not a power of two (520, say), sector 2^23 passes the check
    although its byte offset 2^32 is not a multiple of the block
    size. *)
Theorem laligned_inexact_off_powers_of_two :
  forall (St : Type) (dev : zbc_device St),
    0 < zbd_lblock_size (zbd_info dev) < 2 ^ 32 ->
    is_pow2 (zbd_lblock_size (zbd_info dev)) = false ->
    zbc_dev_sect_laligned dev (2 ^ 23) = true
    /\ (2 ^ 23 * 512) mod zbd_lblock_size (zbd_info dev) <> 0.
Proof.
  intros St dev Hbs Hnp. split.
  - unfold zbc_dev_sect_laligned.
    change (2 ^ 23) with (0 + 1 * 2 ^ 23).
    rewrite sect_mask_period, sect_mask_low32.
    reflexivity.
  - intros Hmod.
    apply Z.mod_divide in Hmod; [|lia].
    change (2 ^ 23 * 512) with (2 ^ 32) in Hmod.
    destruct (pow2_divisor 32 ltac:(lia) _ (proj1 Hbs) Hmod) as [k [Hk Hk2]].
    rewrite Hk2, is_pow2_pow2 in Hnp by exact Hk.
    discriminate.
Qed.

Lemma laligned_inexact_off_powers_of_two_witness :
  0 < zbd_lblock_size (zbd_info (device_with_blocks 520 520)) < 2 ^ 32
  /\ is_pow2 (zbd_lblock_size (zbd_info (device_with_blocks 520 520)))
     = false
  /\ zbc_dev_sect_laligned (device_with_blocks 520 520) (2 ^ 23) = true
  /\ (2 ^ 23 * 512)
     mod zbd_lblock_size (zbd_info (device_with_blocks 520 520)) <> 0.
Proof.
  assert (Hbs : 0 < zbd_lblock_size (zbd_info (device_with_blocks 520 520))
                < 2 ^ 32) by (split; reflexivity).
  assert (Hnp : is_pow2 (zbd_lblock_size
                           (zbd_info (device_with_blocks 520 520)))
                = false) by reflexivity.
  exact (conj Hbs (conj Hnp
    (laligned_inexact_off_powers_of_two
       ZoneModel.disk (device_with_blocks 520 520) Hbs Hnp))).
Defined.

(* ================================================================== *)
(** ** More on test mode *)

(** X8. The value of [zbc_test_mode] is not a normalised truth value:
    it is 0 or 0x80000000, never 1, and it is 0x80000000 exactly when
    the device is in test mode. *)
Theorem zbc_test_mode_value_is_flag_bit :
  forall (St : Type) (HAVE_DEVTEST : bool) (dev : zbc_device St),
    (zbc_test_mode_val HAVE_DEVTEST dev = 0
     \/ zbc_test_mode_val HAVE_DEVTEST dev = ZBC_DEVTEST)
    /\ zbc_test_mode_val HAVE_DEVTEST dev <> 1
    /\ (zbc_test_mode HAVE_DEVTEST dev = true
        <-> zbc_test_mode_val HAVE_DEVTEST dev = ZBC_DEVTEST).
Proof.
  intros St HAVE_DEVTEST dev.
  unfold zbc_test_mode, zbc_test_mode_val, ZBC_DEVTEST.
  destruct HAVE_DEVTEST.
  - change 0x80000000 with (2 ^ 31).
    rewrite land_single_bit by lia.
    destruct (Z.testbit (zbd_flags dev) 31); simpl;
      (split; [auto | split; [discriminate |]]);
      split; intros H; try reflexivity; discriminate H.
  - simpl. split; [auto | split; [discriminate | split; discriminate]].
Qed.

(* ================================================================== *)
(** ** More on levelled logging *)

Lemma zbc_print_level_step (c : log_call) (L : Z) (out : output) :
  zbc_print_level (lc_level c) (lc_stream c) (lc_text c) L out
  = out ++ (if lc_level c <=? L then [log_line c] else []).
Proof.
  unfold zbc_print_level, zbc_print, log_line.
  destruct (lc_level c <=? L); [reflexivity | now rewrite app_nil_r].
Qed.

(** X9. A run of levelled messages under one log level prints exactly
    the messages whose level is at most the log level, each once, in
    the order they were issued, after what was printed before; so it
    adds as many lines as there are such messages. *)
Theorem zbc_print_level_seq_prints_enabled_in_order :
  forall (calls : list log_call) (L : Z) (out : output),
    zbc_print_level_seq calls L out
    = out ++ map log_line (filter (fun c => lc_level c <=? L) calls)
    /\ List.length (zbc_print_level_seq calls L out)
       = (List.length out
          + List.length (filter (fun c => (lc_level c <=? L)%Z) calls))%nat.
Proof.
  intros calls L out.
  assert (Heq : zbc_print_level_seq calls L out
                = out ++ map log_line
                              (filter (fun c => lc_level c <=? L) calls)).
  { unfold zbc_print_level_seq. revert out.
    induction calls as [|c calls IH]; intros out; simpl.
    - now rewrite app_nil_r.
    - rewrite IH, zbc_print_level_step.
      destruct (lc_level c <=? L); simpl.
      + now rewrite <- app_assoc.
      + now rewrite app_nil_r. }
  split; [exact Heq|].
  rewrite Heq, length_app, length_map. reflexivity.
Qed.

(** X10. Raising the log level never loses a message: a message that
    is printed under a log level is printed, as the same line, under
    every higher one. *)
Theorem zbc_print_level_monotone :
  forall (l L L' : Z) (s : stream) (text : string) (out : output),
    L <= L' ->
    zbc_print_level l s text L out <> out ->
    zbc_print_level l s text L' out = zbc_print_level l s text L out.
Proof.
  intros l L L' s text out HL Hprinted.
  unfold zbc_print_level in *.
  destruct (Z.leb_spec l L) as [Hle|Hgt].
  - destruct (Z.leb_spec l L'); [reflexivity | lia].
  - now contradiction Hprinted.
Qed.

Lemma zbc_print_level_monotone_witness :
  ZBC_LOG_ERROR <= ZBC_LOG_DEBUG
  /\ zbc_print_level ZBC_LOG_WARNING stderr "w" ZBC_LOG_ERROR [] <> []
  /\ zbc_print_level ZBC_LOG_WARNING stderr "w" ZBC_LOG_DEBUG []
     = zbc_print_level ZBC_LOG_WARNING stderr "w" ZBC_LOG_ERROR [].
Proof.
  assert (HL : ZBC_LOG_ERROR <= ZBC_LOG_DEBUG) by (vm_compute; discriminate).
  assert (Hp : zbc_print_level ZBC_LOG_WARNING stderr "w" ZBC_LOG_ERROR []
               <> []) by (vm_compute; discriminate).
  exact (conj HL (conj Hp
    (zbc_print_level_monotone ZBC_LOG_WARNING ZBC_LOG_ERROR ZBC_LOG_DEBUG
                              stderr "w" [] HL Hp))).
Defined.

Lemma macro_prints_iff (l L : Z) (s : stream) (text : string) (out : output) :
  zbc_print_level l s text L out <> out <-> l <= L.
Proof.
  unfold zbc_print_level, zbc_print.
  destruct (Z.leb_spec l L) as [Hle|Hgt]; split; intros H.
  - exact Hle.
  - apply app_one_neq.
  - now contradiction H.
  - lia.
Qed.

(** X11. The four message macros are nested by their level numbers:
    under any log level, if the debug macro prints then the info macro
    prints, if the info macro prints then the error macro prints, and
    if the error macro prints then the warning macro prints. So errors
    are never shown without warnings, while warnings can be shown
    without errors (at level warning). *)
Theorem log_macros_nested :
  forall (L : Z) (t1 t2 : string) (o1 o2 : output),
    (zbc_debug t1 L o1 <> o1 -> zbc_info t2 L o2 <> o2)
    /\ (zbc_info t1 L o1 <> o1 -> zbc_error t2 L o2 <> o2)
    /\ (zbc_error t1 L o1 <> o1 -> zbc_warning t2 L o2 <> o2)
    /\ (zbc_warning t1 ZBC_LOG_WARNING o1 <> o1
        /\ zbc_error t2 ZBC_LOG_WARNING o2 = o2).
Proof.
  intros L t1 t2 o1 o2.
  unfold zbc_debug, zbc_info, zbc_error, zbc_warning.
  rewrite !macro_prints_iff.
  unfold ZBC_LOG_DEBUG, ZBC_LOG_INFO, ZBC_LOG_ERROR, ZBC_LOG_WARNING.
  split; [lia|]. split; [lia|]. split; [lia|].
  split; [lia | reflexivity].
Qed.

Lemma log_macros_nested_witness :
  zbc_error "e" ZBC_LOG_INFO [] <> []
  /\ zbc_warning "w" ZBC_LOG_INFO [] <> [].
Proof.
  assert (He : zbc_error "e" ZBC_LOG_INFO [] <> [])
    by (vm_compute; discriminate).
  exact (conj He
    (proj1 (proj2 (proj2 (log_macros_nested ZBC_LOG_INFO "e" "w" [] [])))
       He)).
Defined.

Lemma prefix_append (s t : string) : String.prefix s (String.append s t) = true.
Proof.
  induction s as [|a s IH]; simpl.
  - destruct t; reflexivity.
  - destruct (Ascii.ascii_dec a a) as [_|Hne]; [exact IH | now contradiction Hne].
Qed.

(** X12. Each message macro leaves what was printed before untouched
    and adds at most one line. Warnings and errors go to the error
    stream, info and debug messages to the standard output, and every
    line starts with the library tag, followed by the severity tag for
    warnings and errors. *)
Theorem log_macros_route_and_tag :
  forall (text : string) (L : Z) (out : output),
    adds_at_most_one_line stderr "(libzbc) [WARNING] " out
                          (zbc_warning text L out)
    /\ adds_at_most_one_line stderr "(libzbc) [ERROR] " out
                             (zbc_error text L out)
    /\ adds_at_most_one_line stdout "(libzbc) " out (zbc_info text L out)
    /\ adds_at_most_one_line stdout "(libzbc) " out (zbc_debug text L out).
Proof.
  intros text L out.
  unfold adds_at_most_one_line, zbc_warning, zbc_error, zbc_info, zbc_debug,
    zbc_print_level, zbc_print.
  split; [|split; [|split]].
  - destruct (ZBC_LOG_WARNING <=? L); [right | now left].
    eexists. split; [reflexivity|].
    apply (prefix_append "(libzbc) [WARNING] " text).
  - destruct (ZBC_LOG_ERROR <=? L); [right | now left].
    eexists. split; [reflexivity|].
    apply (prefix_append "(libzbc) [ERROR] " text).
  - destruct (ZBC_LOG_INFO <=? L); [right | now left].
    eexists. split; [reflexivity|].
    apply (prefix_append "(libzbc) " text).
  - destruct (ZBC_LOG_DEBUG <=? L); [right | now left].
    eexists. split; [reflexivity|].
    apply (prefix_append "(libzbc) " text).
Qed.

(* ================================================================== *)
(** ** Panic and assertion *)

(** X13. [zbc_assert] on a true condition does nothing: no output and
    no abort, at any log level. On a false condition, when assertions
    are compiled in, the process is aborted whatever the log level,
    after the diagnostic of [assert] itself; the library's panic line
    naming the condition comes before it only from level error on, so
    at the levels none and warning the diagnostic of [assert] is all
    that is printed. With [NDEBUG] the panic line is printed in the
    same way, nothing else is, and the process goes on. *)
Theorem zbc_assert_aborts_whatever_the_level :
  forall (NDEBUG : bool) (cond : Z) (cond_text diag : string) (L : Z)
         (out : output),
    (cond <> 0 ->
     zbc_assert NDEBUG cond cond_text diag L out = (out, false))
    /\ (cond = 0 ->
        zbc_assert NDEBUG cond cond_text diag L out
        = ((out
            ++ (if ZBC_LOG_ERROR <=? L
                then [(stderr,
                       String.append "(libzbc) [PANIC] Condition "
                         (String.append cond_text
                            (String.append " failed" newline)))]
                else []))
           ++ (if NDEBUG then [] else [(stderr, diag)]),
           negb NDEBUG)).
Proof.
  intros NDEBUG cond cond_text diag L out.
  unfold zbc_assert, zbc_panic, c_assert, zbc_print_level, zbc_print.
  split.
  - intros Hc. apply Z.eqb_neq in Hc. now rewrite Hc.
  - intros ->. simpl.
    destruct NDEBUG; simpl;
      destruct (ZBC_LOG_ERROR <=? L); simpl;
      rewrite ?app_nil_r; reflexivity.
Qed.

Lemma zbc_assert_aborts_whatever_the_level_witness :
  0 = 0
  /\ zbc_assert false 0 "nz > 0" "zbc: Assertion failed" ZBC_LOG_WARNING []
     = (([] ++ (if ZBC_LOG_ERROR <=? ZBC_LOG_WARNING
                then [(stderr,
                       String.append "(libzbc) [PANIC] Condition "
                         (String.append "nz > 0"
                            (String.append " failed" newline)))]
                else []))
        ++ [(stderr, "zbc: Assertion failed"%string)],
        negb false).
Proof.
  assert (Hc : 0 = 0) by reflexivity.
  exact (conj Hc
    (proj2 (zbc_assert_aborts_whatever_the_level
              false 0 "nz > 0" "zbc: Assertion failed" ZBC_LOG_WARNING [])
       Hc)).
Defined.
